(** * The workflow store of AutoStream AI (frontend/src/hooks/useWorkflow.js)

    A shallow embedding of the zustand store that coordinates the
    trend -> script -> audio -> assets -> video wizard, and the properties
    of its actions.

    The store is a record of plain fields; every action reads it with
    [get] and publishes a merged copy with [set].  An asynchronous action
    runs a synchronous prefix, suspends on one call to the backend
    (services/api.js) and resumes with that call's outcome, so it is
    modelled in two phases, [before] and [after], the latter taking the
    outcome of the backend call as an argument. *)

From Stdlib Require Import String List ZArith QArith Bool Lia.
Import ListNotations.

Close Scope Q_scope.
Open Scope string_scope.
Open Scope Z_scope.

(** ** Data *)

(** A JavaScript number that the store only copies around. *)
Definition number := Q.

Module Step.
Record t := mk { id : string; name : string; description : string }.
End Step.

Module Trend.
(** A trend as returned by the backend.  The store itself reads
    [title] and [description] only. *)
Record t := mk {
    id : string;
    title : string;
    description : option string;
    source : string;
    url : option string
  }.
End Trend.

Module Script.
Record t := mk { content : string; title : string; duration : number }.
End Script.

Module Audio.
Record t := mk { path : string; url : string; duration : number }.
End Audio.

Module Assets.
(** [null] (or a deleted key) is [None]. *)
Record t := mk {
    avatar : option string;
    logo : option string;
    background : option string
  }.
End Assets.

Module Video.
Record t := mk { outputPath : string; url : string; progress : Z }.
End Video.

Module Voice.
Record t := mk { id : string; name : string }.
End Voice.

(** The state of the store.  The [steps] table is a field of the store in
    the source, but no action ever writes it; it is the constant [steps]
    below. *)
Record State := mkState {
  currentStep : string;
  projectId : option string;
  isLoading : bool;
  error : option string;
  trends : list Trend.t;
  selectedTrend : option Trend.t;
  script : Script.t;
  audio : Audio.t;
  assets : Assets.t;
  video : Video.t;
  voices : list Voice.t;
  availableModels : list string
}.

Definition steps : list Step.t :=
  [ Step.mk "trends" "Trends" "Discover trending topics";
    Step.mk "script" "Script" "Generate your script";
    Step.mk "audio" "Audio" "Create voiceover";
    Step.mk "assets" "Assets" "Configure visuals";
    Step.mk "video" "Video" "Generate video";
    Step.mk "complete" "Complete" "Review & export" ].

Definition empty_script : Script.t := Script.mk "" "" 0%Q.
Definition empty_audio : Audio.t := Audio.mk "" "" 0%Q.
Definition empty_assets : Assets.t := Assets.mk None None None.
Definition empty_video : Video.t := Video.mk "" "" 0.

(** The initial value passed to [create]. *)
Definition initial : State :=
  {| currentStep := "trends";
     projectId := None;
     isLoading := false;
     error := None;
     trends := [];
     selectedTrend := None;
     script := empty_script;
     audio := empty_audio;
     assets := empty_assets;
     video := empty_video;
     voices := [];
     availableModels := [] |}.

(** ** Partial updates

    [set({ f: v })] merges one field into the current state; one setter per
    field written by some action. *)

Definition with_currentStep (v : string) (s : State) : State :=
  mkState v (projectId s) (isLoading s) (error s) (trends s)
    (selectedTrend s) (script s) (audio s) (assets s) (video s) (voices s)
    (availableModels s).

Definition with_projectId (v : option string) (s : State) : State :=
  mkState (currentStep s) v (isLoading s) (error s) (trends s)
    (selectedTrend s) (script s) (audio s) (assets s) (video s) (voices s)
    (availableModels s).

Definition with_isLoading (v : bool) (s : State) : State :=
  mkState (currentStep s) (projectId s) v (error s) (trends s)
    (selectedTrend s) (script s) (audio s) (assets s) (video s) (voices s)
    (availableModels s).

Definition with_error (v : option string) (s : State) : State :=
  mkState (currentStep s) (projectId s) (isLoading s) v (trends s)
    (selectedTrend s) (script s) (audio s) (assets s) (video s) (voices s)
    (availableModels s).

Definition with_trends (v : list Trend.t) (s : State) : State :=
  mkState (currentStep s) (projectId s) (isLoading s) (error s) v
    (selectedTrend s) (script s) (audio s) (assets s) (video s) (voices s)
    (availableModels s).

Definition with_selectedTrend (v : option Trend.t) (s : State) : State :=
  mkState (currentStep s) (projectId s) (isLoading s) (error s) (trends s)
    v (script s) (audio s) (assets s) (video s) (voices s)
    (availableModels s).

Definition with_script (v : Script.t) (s : State) : State :=
  mkState (currentStep s) (projectId s) (isLoading s) (error s) (trends s)
    (selectedTrend s) v (audio s) (assets s) (video s) (voices s)
    (availableModels s).

Definition with_audio (v : Audio.t) (s : State) : State :=
  mkState (currentStep s) (projectId s) (isLoading s) (error s) (trends s)
    (selectedTrend s) (script s) v (assets s) (video s) (voices s)
    (availableModels s).

Definition with_assets (v : Assets.t) (s : State) : State :=
  mkState (currentStep s) (projectId s) (isLoading s) (error s) (trends s)
    (selectedTrend s) (script s) (audio s) v (video s) (voices s)
    (availableModels s).

Definition with_video (v : Video.t) (s : State) : State :=
  mkState (currentStep s) (projectId s) (isLoading s) (error s) (trends s)
    (selectedTrend s) (script s) (audio s) (assets s) v (voices s)
    (availableModels s).

Definition with_voices (v : list Voice.t) (s : State) : State :=
  mkState (currentStep s) (projectId s) (isLoading s) (error s) (trends s)
    (selectedTrend s) (script s) (audio s) (assets s) (video s) v
    (availableModels s).

Definition with_availableModels (v : list string) (s : State) : State :=
  mkState (currentStep s) (projectId s) (isLoading s) (error s) (trends s)
    (selectedTrend s) (script s) (audio s) (assets s) (video s) (voices s)
    v.

(** ** Store programs: state and exceptions *)

Record Error := mkError { message : string }.

(** How a promise settles, and how a synchronous block ends. *)
Inductive Outcome (A : Type) : Type :=
| Resolved (a : A)
| Rejected (e : Error).
Arguments Resolved {A} a.
Arguments Rejected {A} e.

Definition M (A : Type) : Type := State -> State * Outcome A.

Definition ret {A} (a : A) : M A := fun s => (s, Resolved a).

Definition bind {A B} (m : M A) (k : A -> M B) : M B :=
  fun s =>
    match m s with
    | (s1, Resolved a) => k a s1
    | (s1, Rejected e) => (s1, Rejected e)
    end.

Definition get : M State := fun s => (s, Resolved s).

Definition set (f : State -> State) : M unit := fun s => (f s, Resolved tt).

Definition throw {A} (e : Error) : M A := fun s => (s, Rejected e).

(** [try { body } catch (error) { handler error }]: the handler runs on the
    state the body had reached when it threw. *)
Definition try_catch {A} (body : M A) (handler : Error -> M A) : M A :=
  fun s =>
    match body s with
    | (s1, Resolved a) => (s1, Resolved a)
    | (s1, Rejected e) => handler e s1
    end.

(** [await p] inside a block, [p] having settled as [o]. *)
Definition await {A} (o : Outcome A) : M A := fun s => (s, o).

Declare Scope store_scope.
Delimit Scope store_scope with store.
Notation "x <- c1 ;; c2" := (bind c1 (fun x => c2))
  (at level 61, c1 at next level, right associativity) : store_scope.
Notation "c1 ;;; c2" := (bind c1 (fun _ => c2))
  (at level 61, right associativity) : store_scope.
Open Scope store_scope.

Definition state_of {A} (r : State * Outcome A) : State := fst r.
Definition result_of {A} (r : State * Outcome A) : Outcome A := snd r.

Definition is_rejected {A} (o : Outcome A) : bool :=
  match o with Rejected _ => true | Resolved _ => false end.

(** ** Requests sent to the backend (services/api.js) *)

Definition File := string.

Inductive Request : Type :=
| ReqSearchTrends (query niche : string) (limit : Z)
| ReqSelectTrend (trend : Trend.t)
| ReqGenerateScript (topic description tone length : string)
| ReqUpdateScript (content : string)
| ReqApproveScript
| ReqGetAvailableVoices
| ReqGenerateAudio (text voiceId : string) (stability similarityBoost : number)
| ReqApproveAudio
| ReqUploadAvatar (file : File)
| ReqUploadLogo (file : File)
| ReqUploadBackground (file : File)
| ReqGenerateVideo (useHeygem : bool) (quality : string)
| ReqCreateProject (name : string)
| ReqGetOllamaModels.

(** The [data] of the responses the store reads.  A resolved reply whose
    [data] is [null] is [Resolved None] in the actions that read a
    property of it. *)
Record ScriptData := mkScriptData {
  sd_content : string; sd_title : string; sd_duration_estimate : number }.
Record AudioData := mkAudioData {
  ad_path : string; ad_url : string; ad_duration : number }.
Record VideoData := mkVideoData { vd_path : string; vd_url : string }.

(** An asynchronous action: what runs up to the [await] (yielding the
    request it sends), and what runs once the call has settled. *)
Record Async (Resp A : Type) : Type := mkAsync {
  before : M Request;
  after : Outcome Resp -> M A
}.
Arguments mkAsync {Resp A} before after.
Arguments before {Resp A} a.
Arguments after {Resp A} a o.

(** Running an action to completion with no other action in between. *)
Definition complete {Resp A} (a : Async Resp A) (o : Outcome Resp) : M A :=
  _ <- before a ;; after a o.

(** ** The actions of the store *)

(** [Array.prototype.findIndex] with the test [s => s.id === step]: the
    position of the first match, or -1. *)
Fixpoint findIndex_from (i : Z) (l : list Step.t) (step : string) : Z :=
  match l with
  | [] => -1
  | st :: l' =>
      if String.eqb (Step.id st) step then i
      else findIndex_from (i + 1) l' step
  end.

Definition findIndex (l : list Step.t) (step : string) : Z :=
  findIndex_from 0 l step.

Definition length_of (l : list Step.t) : Z := Z.of_nat (List.length l).

(** [l[i]]: [undefined] out of range. *)
Definition item (l : list Step.t) (i : Z) : option Step.t :=
  if i <? 0 then None else nth_error l (Z.to_nat i).

(** Reading [.id] of [undefined]. *)
Definition type_error : Error :=
  mkError "Cannot read properties of undefined (reading 'id')".

(** Reading property [key] of a reply whose [data] is [null]. *)
Definition no_data (key : string) : Error :=
  mkError ("Cannot read properties of null (reading '" ++ key ++ "')").

(** [response.data] on its way to [response.data.key]: the data of the
    reply, or the TypeError thrown when the reply carries none. *)
Definition data_of {A} (key : string) (data : option A) : M A :=
  match data with
  | Some d => ret d
  | None => throw (no_data key)
  end.

(** [x || ''] on an optional string. *)
Definition or_empty (x : option string) : string :=
  match x with
  | Some v => v
  | None => ""
  end.

(** [!x] on a string: only the empty string is falsy. *)
Definition falsy (x : string) : bool := String.eqb x "".

Definition setCurrentStep (step : string) : M unit :=
  set (with_currentStep step).

Definition goto (i : Z) : M unit :=
  match item steps i with
  | Some st => set (with_currentStep (Step.id st))
  | None => throw type_error
  end.

Definition nextStep : M unit :=
  s <- get ;;
  let currentIndex := findIndex steps (currentStep s) in
  if currentIndex <? length_of steps - 1
  then goto (currentIndex + 1)
  else ret tt.

Definition previousStep : M unit :=
  s <- get ;;
  let currentIndex := findIndex steps (currentStep s) in
  if 0 <? currentIndex
  then goto (currentIndex - 1)
  else ret tt.

(** The two publications shared by the actions that show a spinner. *)
Definition loading_started (s : State) : State :=
  with_error None (with_isLoading true s).

Definition loading_failed (e : Error) (s : State) : State :=
  with_isLoading false (with_error (Some (message e)) s).

Definition searchTrends (query niche : string)
  : Async (list Trend.t) (list Trend.t) :=
  mkAsync
    (set loading_started ;;;
     ret (ReqSearchTrends query niche 10))
    (fun o =>
       try_catch
         (data <- await o ;;
          set (fun s => with_isLoading false (with_trends data s)) ;;;
          ret data)
         (fun e => set (loading_failed e) ;;; throw e)).

Definition selectTrend (trend : Trend.t) : Async unit unit :=
  mkAsync
    (set loading_started ;;;
     ret (ReqSelectTrend trend))
    (fun o =>
       try_catch
         (_ <- await o ;;
          set (fun s => with_isLoading false
                          (with_selectedTrend (Some trend) s)) ;;;
          nextStep)
         (fun e => set (loading_failed e) ;;; throw e)).

Definition generateScript (tone length : string)
  : Async (option ScriptData) ScriptData :=
  mkAsync
    (s <- get ;;
     match selectedTrend s with
     | None => throw (mkError "No trend selected")
     | Some t =>
         set loading_started ;;;
         ret (ReqGenerateScript (Trend.title t)
                (or_empty (Trend.description t)) tone length)
     end)
    (fun o =>
       try_catch
         (response <- await o ;;
          data <- data_of "content" response ;;
          set (fun s =>
                 with_isLoading false
                   (with_script
                      (Script.mk (sd_content data) (sd_title data)
                         (sd_duration_estimate data)) s)) ;;;
          ret data)
         (fun e => set (loading_failed e) ;;; throw e)).

Definition updateScript (content : string) : Async unit unit :=
  mkAsync
    (ret (ReqUpdateScript content))
    (fun o =>
       try_catch
         (_ <- await o ;;
          set (fun s =>
                 with_script
                   (Script.mk content (Script.title (script s))
                      (Script.duration (script s))) s))
         (fun e => set (with_error (Some (message e))) ;;; throw e)).

Definition approveScript : Async unit unit :=
  mkAsync
    (ret ReqApproveScript)
    (fun o =>
       try_catch
         (_ <- await o ;; nextStep)
         (fun e => set (with_error (Some (message e))) ;;; throw e)).

(** [loadVoices] and [loadModels] log a failure to the console and swallow
    it. *)
Definition loadVoices : Async (list Voice.t) unit :=
  mkAsync
    (ret ReqGetAvailableVoices)
    (fun o =>
       try_catch
         (data <- await o ;; set (with_voices data))
         (fun _ => ret tt)).

(** In the source the object passed to [set] on success lacks its closing
    brace; it is read here with the brace in place, as in the sibling
    actions. *)
Definition generateAudio (voiceId : string) (stability similarityBoost : number)
  : Async (option AudioData) AudioData :=
  mkAsync
    (s <- get ;;
     if falsy (Script.content (script s))
     then throw (mkError "No script available")
     else
       set loading_started ;;;
       ret (ReqGenerateAudio (Script.content (script s)) voiceId
              stability similarityBoost))
    (fun o =>
       try_catch
         (response <- await o ;;
          data <- data_of "path" response ;;
          set (fun s =>
                 with_isLoading false
                   (with_audio
                      (Audio.mk (ad_path data) (ad_url data)
                         (ad_duration data)) s)) ;;;
          ret data)
         (fun e => set (loading_failed e) ;;; throw e)).

Definition approveAudio : Async unit unit :=
  mkAsync
    (ret ReqApproveAudio)
    (fun o =>
       try_catch
         (_ <- await o ;; nextStep)
         (fun e => set (with_error (Some (message e))) ;;; throw e)).

(** The three uploads; the data of the response carries the stored
    reference under the key of its kind. *)
Definition uploadAvatar (file : File)
  : Async (option (option string)) (option string) :=
  mkAsync
    (set loading_started ;;;
     ret (ReqUploadAvatar file))
    (fun o =>
       try_catch
         (response <- await o ;;
          data <- data_of "avatar" response ;;
          set (fun s =>
                 with_isLoading false
                   (with_assets
                      (Assets.mk data (Assets.logo (assets s))
                         (Assets.background (assets s))) s)) ;;;
          ret data)
         (fun e => set (loading_failed e) ;;; throw e)).

Definition uploadLogo (file : File)
  : Async (option (option string)) (option string) :=
  mkAsync
    (set loading_started ;;;
     ret (ReqUploadLogo file))
    (fun o =>
       try_catch
         (response <- await o ;;
          data <- data_of "logo" response ;;
          set (fun s =>
                 with_isLoading false
                   (with_assets
                      (Assets.mk (Assets.avatar (assets s)) data
                         (Assets.background (assets s))) s)) ;;;
          ret data)
         (fun e => set (loading_failed e) ;;; throw e)).

Definition uploadBackground (file : File)
  : Async (option (option string)) (option string) :=
  mkAsync
    (set loading_started ;;;
     ret (ReqUploadBackground file))
    (fun o =>
       try_catch
         (response <- await o ;;
          data <- data_of "background" response ;;
          set (fun s =>
                 with_isLoading false
                   (with_assets
                      (Assets.mk (Assets.avatar (assets s))
                         (Assets.logo (assets s)) data) s)) ;;;
          ret data)
         (fun e => set (loading_failed e) ;;; throw e)).

Definition generateVideo (useHeygem : bool) (quality : string)
  : Async (option VideoData) VideoData :=
  mkAsync
    (set loading_started ;;;
     ret (ReqGenerateVideo useHeygem quality))
    (fun o =>
       try_catch
         (response <- await o ;;
          data <- data_of "path" response ;;
          set (fun s =>
                 with_isLoading false
                   (with_video (Video.mk (vd_path data) (vd_url data) 100)
                      s)) ;;;
          ret data)
         (fun e => set (loading_failed e) ;;; throw e)).

Definition createProject (name : string) : Async (option string) string :=
  mkAsync
    (ret (ReqCreateProject name))
    (fun o =>
       try_catch
         (response <- await o ;;
          project_id <- data_of "project_id" response ;;
          set (with_projectId (Some project_id)) ;;;
          ret project_id)
         (fun e => set (with_error (Some (message e))) ;;; throw e)).

Definition loadModels : Async (list string) unit :=
  mkAsync
    (ret ReqGetOllamaModels)
    (fun o =>
       try_catch
         (data <- await o ;; set (with_availableModels data))
         (fun _ => ret tt)).

Definition resetError : M unit := set (with_error None).

(** [reset] lists every field but [steps], [voices] and
    [availableModels]. *)
Definition reset : M unit :=
  set (fun s =>
         mkState "trends" None false None [] None empty_script empty_audio
           empty_assets empty_video (voices s) (availableModels s)).

(** ** Calls

    One invocation of an action: its arguments and, for an asynchronous
    action, how its backend call settles. *)
Inductive Call : Type :=
| CallSetCurrentStep (step : string)
| CallNextStep
| CallPreviousStep
| CallSearchTrends (query niche : string) (o : Outcome (list Trend.t))
| CallSelectTrend (trend : Trend.t) (o : Outcome unit)
| CallGenerateScript (tone length : string) (o : Outcome (option ScriptData))
| CallUpdateScript (content : string) (o : Outcome unit)
| CallApproveScript (o : Outcome unit)
| CallLoadVoices (o : Outcome (list Voice.t))
| CallGenerateAudio (voiceId : string) (stability similarityBoost : number)
    (o : Outcome (option AudioData))
| CallApproveAudio (o : Outcome unit)
| CallUploadAvatar (file : File) (o : Outcome (option (option string)))
| CallUploadLogo (file : File) (o : Outcome (option (option string)))
| CallUploadBackground (file : File) (o : Outcome (option (option string)))
| CallGenerateVideo (useHeygem : bool) (quality : string)
    (o : Outcome (option VideoData))
| CallCreateProject (name : string) (o : Outcome (option string))
| CallLoadModels (o : Outcome (list string))
| CallResetError
| CallReset.

Definition void {A} (m : M A) : M unit := _ <- m ;; ret tt.

(** What the call runs before it first suspends: for a synchronous action,
    all of it. *)
Definition enter (c : Call) : M unit :=
  match c with
  | CallSetCurrentStep step => setCurrentStep step
  | CallNextStep => nextStep
  | CallPreviousStep => previousStep
  | CallSearchTrends q n _ => void (before (searchTrends q n))
  | CallSelectTrend t _ => void (before (selectTrend t))
  | CallGenerateScript tone len _ => void (before (generateScript tone len))
  | CallUpdateScript content _ => void (before (updateScript content))
  | CallApproveScript _ => void (before approveScript)
  | CallLoadVoices _ => void (before loadVoices)
  | CallGenerateAudio v st sb _ => void (before (generateAudio v st sb))
  | CallApproveAudio _ => void (before approveAudio)
  | CallUploadAvatar f _ => void (before (uploadAvatar f))
  | CallUploadLogo f _ => void (before (uploadLogo f))
  | CallUploadBackground f _ => void (before (uploadBackground f))
  | CallGenerateVideo h q _ => void (before (generateVideo h q))
  | CallCreateProject n _ => void (before (createProject n))
  | CallLoadModels _ => void (before loadModels)
  | CallResetError => resetError
  | CallReset => reset
  end.

(** What the call runs once its backend call has settled: for a
    synchronous action, nothing. *)
Definition resume (c : Call) : M unit :=
  match c with
  | CallSetCurrentStep _ | CallNextStep | CallPreviousStep
  | CallResetError | CallReset => ret tt
  | CallSearchTrends q n o => void (after (searchTrends q n) o)
  | CallSelectTrend t o => after (selectTrend t) o
  | CallGenerateScript tone len o => void (after (generateScript tone len) o)
  | CallUpdateScript content o => after (updateScript content) o
  | CallApproveScript o => after approveScript o
  | CallLoadVoices o => after loadVoices o
  | CallGenerateAudio v st sb o => void (after (generateAudio v st sb) o)
  | CallApproveAudio o => after approveAudio o
  | CallUploadAvatar f o => void (after (uploadAvatar f) o)
  | CallUploadLogo f o => void (after (uploadLogo f) o)
  | CallUploadBackground f o => void (after (uploadBackground f) o)
  | CallGenerateVideo h q o => void (after (generateVideo h q) o)
  | CallCreateProject n o => void (after (createProject n) o)
  | CallLoadModels o => after loadModels o
  end.

(** The call run to completion, no other action in between. *)
Definition exec (c : Call) : M unit := enter c ;;; resume c.

(** Whether the backend call of [c] raised. *)
Definition gateway_failed (c : Call) : bool :=
  match c with
  | CallSetCurrentStep _ | CallNextStep | CallPreviousStep
  | CallResetError | CallReset => false
  | CallSearchTrends _ _ o => is_rejected o
  | CallSelectTrend _ o => is_rejected o
  | CallGenerateScript _ _ o => is_rejected o
  | CallUpdateScript _ o => is_rejected o
  | CallApproveScript o => is_rejected o
  | CallLoadVoices o => is_rejected o
  | CallGenerateAudio _ _ _ o => is_rejected o
  | CallApproveAudio o => is_rejected o
  | CallUploadAvatar _ o => is_rejected o
  | CallUploadLogo _ o => is_rejected o
  | CallUploadBackground _ o => is_rejected o
  | CallGenerateVideo _ _ o => is_rejected o
  | CallCreateProject _ o => is_rejected o
  | CallLoadModels o => is_rejected o
  end.

(** A sequence of calls, each run to completion, whether or not the
    previous one threw. *)
Definition run (cs : list Call) (s : State) : State :=
  fold_left (fun acc c => state_of (exec c acc)) cs s.

(** The states the store can be in. *)
Inductive reachable : State -> Prop :=
| reachable_initial : reachable initial
| reachable_exec c s : reachable s -> reachable (state_of (exec c s)).

(** ** Observations *)

(** The five artifacts of the pipeline. *)
Definition artifacts (s : State)
  : option Trend.t * Script.t * Audio.t * Assets.t * Video.t :=
  (selectedTrend s, script s, audio s, assets s, video s).

(** Every field that is neither an artifact nor [currentStep]. *)
Definition rest (s : State) :=
  (projectId s, isLoading s, error s, trends s, voices s, availableModels s).

(** Position of the current step in [steps]; -1 for an id that is not in
    the table. *)
Definition currentIndex (s : State) : Z := findIndex steps (currentStep s).

(** The id [nextStep] leaves in [currentStep]. *)
Definition id_after_nextStep (step : string) : string :=
  let i := findIndex steps step in
  if i <? length_of steps - 1
  then match item steps (i + 1) with
       | Some st => Step.id st
       | None => step
       end
  else step.

(** A call has failed when its backend call raised or when the call itself
    rejected (the local checks of [generateScript] and [generateAudio]
    reject without calling the backend, and the reading of a reply without
    data throws). *)
Definition failed (c : Call) (s : State) : bool :=
  gateway_failed c || is_rejected (result_of (exec c s)).






(** A call raises the busy flag on entry when, started with the flag down,
    it has published [isLoading: true] by the time it suspends. *)
Definition raises_busy (c : Call) : Prop :=
  exists s0, isLoading s0 = false /\ isLoading (state_of (enter c s0)) = true.


Definition present {A} (x : option A) : bool :=
  match x with Some _ => true | None => false end.

(** The guard column of the transition table of the design (its section
    4.1), read on the fields of the store: what stage [i] is meant to have
    produced before it is left, namely a selected trend, script text, an
    audio file, an avatar, a rendered video. *)
Definition guard (i : Z) (s : State) : bool :=
  if i =? 0 then present (selectedTrend s)
  else if i =? 1 then negb (falsy (Script.content (script s)))
  else if i =? 2 then negb (falsy (Audio.path (audio s)))
  else if i =? 3 then present (Assets.avatar (assets s))
  else if i =? 4 then negb (falsy (Video.outputPath (video s)))
  else true.

(** ** Sample data and sessions *)

Definition sample_trend : Trend.t :=
  Trend.mk "t1" "AI agents" (Some "Agents that write code") "reddit" None.

Definition other_trend : Trend.t :=
  Trend.mk "t2" "Retro consoles" None "youtube" None.

Definition sample_script : ScriptData :=
  mkScriptData "Hello world" "Greeting" 12%Q.

Definition sample_audio : AudioData :=
  mkAudioData "output/voice.mp3" "/media/voice.mp3" (123 # 10)%Q.


Definition timeout_error : Error := mkError "timeout of 30000ms exceeded".

(** A session that searched once. *)
Definition searched : State :=
  run [ CallSearchTrends "AI" "tech" (Resolved [sample_trend]) ] initial.

(** A session that searched, picked a trend and generated a script. *)
Definition scripted : State :=
  run [ CallSearchTrends "AI" "tech" (Resolved [sample_trend]);
        CallSelectTrend sample_trend (Resolved tt);
        CallGenerateScript "professional" "short"
          (Resolved (Some sample_script)) ]
      initial.

(** The session after one press of Skip on the first step: the script step,
    with no script. *)
Definition skipped : State := run [ CallNextStep ] initial.

(** The session after four presses of Skip: the video step, with no avatar
    and no audio. *)
Definition skipped_to_video : State :=
  run [ CallNextStep; CallNextStep; CallNextStep; CallNextStep ] initial.


(** ** The screens that call the store

    The components read the store and call its actions from their event
    handlers.  A handler is embedded as a function of the store state, of
    the component's own state where it has one, and of the outcomes of the
    backend calls it causes; it returns the toasts it shows, in order. *)

Inductive Toast : Type :=
| ToastSuccess (text : string)
| ToastError (text : string).

(** Whether [step] is the id of a row of [steps]. *)
Definition listed (step : string) : bool := 0 <=? findIndex steps step.

(** A call that leaves the step table: [setCurrentStep] with an id that is
    not in it.  The buttons of the layout only pass ids of [steps]. *)
Definition stays_listed (c : Call) : bool :=
  match c with
  | CallSetCurrentStep step => listed step
  | _ => true
  end.

Module WorkflowStepper.

(** [steps.filter(s => s.id !== 'complete')]: the rows the stepper
    draws. *)
Definition displayed : list Step.t :=
  filter (fun st => negb (String.eqb (Step.id st) "complete")) steps.

(** The three marks of the row drawn at position [index]. *)
Definition isActive (s : State) (st : Step.t) : bool :=
  String.eqb (currentStep s) (Step.id st).

Definition isCompleted (s : State) (index : Z) : bool :=
  index <? currentIndex s.

Definition isPending (s : State) (index : Z) : bool :=
  currentIndex s <? index.

(** [disabled] of the Previous and of the Skip button. *)
Definition previousDisabled (s : State) : bool := currentIndex s <=? 0.

Definition skipDisabled (s : State) : bool :=
  length_of steps - 2 <=? currentIndex s.

End WorkflowStepper.

Module ScriptEditor.

(** The editor's own state. *)
Record Local := mkLocal {
  editedContent : string;
  hasChanges : bool;
  generated : bool
}.

Definition handleSave (o : Outcome unit) (l : Local) (s : State)
  : State * Local * list Toast :=
  match complete (updateScript (editedContent l)) o s with
  | (s1, Resolved _) =>
      (s1, mkLocal (editedContent l) false (generated l),
       [ToastSuccess "Script saved!"])
  | (s1, Rejected _) => (s1, l, [ToastError "Failed to save script"])
  end.

(** [handleApprove] saves first when there are changes, and then approves
    whether or not the save went through: [handleSave] catches its own
    failure. *)
Definition handleApprove (o_save o_approve : Outcome unit)
    (l : Local) (s : State) : State * Local * list Toast :=
  let '(s1, l1, shown) :=
    if hasChanges l then handleSave o_save l s else (s, l, []) in
  match complete approveScript o_approve s1 with
  | (s2, Resolved _) => (s2, l1, (shown ++ [ToastSuccess "Script approved!"])%list)
  | (s2, Rejected _) => (s2, l1, (shown ++ [ToastError "Failed to proceed"])%list)
  end.

End ScriptEditor.

(** The asset screen reads [approveVideo] from the store, which defines
    no action of that name: the value read is [undefined], and calling it
    throws inside the handler's [try]. *)
Definition approveVideo : M unit :=
  throw (mkError "approveVideo is not a function").

(** Truthiness of a stored reference: [null], a missing key and the
    empty string are falsy. *)
Definition truthy (x : option string) : bool :=
  match x with
  | Some v => negb (falsy v)
  | None => false
  end.

Inductive AssetKind : Type := Avatar | Logo | Background.


Module AssetUploader.

(** [removeAsset(type)]: a copy of the assets without that key, written
    straight into the store; no backend call. *)
Definition removeAsset (type : AssetKind) : M unit :=
  s <- get ;;
  let a := assets s in
  set (with_assets
         match type with
         | Avatar => Assets.mk None (Assets.logo a) (Assets.background a)
         | Logo => Assets.mk (Assets.avatar a) None (Assets.background a)
         | Background => Assets.mk (Assets.avatar a) (Assets.logo a) None
         end).

Definition handleApprove (s : State) : State * list Toast :=
  if negb (truthy (Assets.avatar (assets s)))
  then (s, [ToastError "Please upload an avatar"])
  else
    match approveVideo s with
    | (s1, Resolved _) => (s1, [ToastSuccess "Assets configured!"])
    | (s1, Rejected _) => (s1, [ToastError "Failed to proceed"])
    end.

End AssetUploader.

(** Everything in the sources that writes the store: the calls of its
    actions, and the one direct [setState], in [removeAsset]. *)
Inductive Event : Type :=
| StoreCall (c : Call)
| RemoveAsset (type : AssetKind).

Definition perform (ev : Event) : M unit :=
  match ev with
  | StoreCall c => exec c
  | RemoveAsset type => AssetUploader.removeAsset type
  end.

Module VideoPreview.


(** [handleNewProject], its toast aside. *)
Definition handleNewProject : M unit :=
  reset ;;; setCurrentStep "trends".

End VideoPreview.

Module VoiceSelector.

(** A voice as the voice studio reads it. *)
Record Card := mkCard {
  id : string;
  name : string;
  engine : option string;
  description : option string;
  isCloned : bool
}.

(** [x || d] on an optional string: the empty string is falsy too. *)
Definition or_default (d : string) (x : option string) : string :=
  match x with
  | Some v => if falsy v then d else v
  | None => d
  end.

(** [{ ...clone, engine: 'xtts', description: ..., isCloned: true }]. *)
Definition as_clone (clone : Card) : Card :=
  mkCard (id clone) (name clone) (Some "xtts")
    (Some (or_default "Custom voice clone" (description clone))) true.

(** [v.engine === selectedEngine]. *)
Definition has_engine (selectedEngine : string) (v : Card) : bool :=
  match engine v with
  | Some e => String.eqb e selectedEngine
  | None => false
  end.

Definition getFilteredVoices (selectedEngine : string)
    (voices clonedVoices : list Card) : list Card :=
  let filtered :=
    if negb (String.eqb selectedEngine "all")
    then filter (has_engine selectedEngine) voices
    else voices in
  fold_left
    (fun allVoices clone =>
       if String.eqb selectedEngine "all" || String.eqb selectedEngine "xtts"
       then (allVoices ++ [as_clone clone])%list
       else allVoices)
    clonedVoices filtered.

End VoiceSelector.

(** ** The requests on the wire (services/api.js) *)

Module Api.

Inductive Value : Type :=
| VString (v : string)
| VNumber (v : number)
| VBool (v : bool).

Inductive Body : Type :=
| NoBody
| JsonObject (fields : list (string * Value))
| TrendObject (trend : Trend.t)
| FormData (file : File)
| NullWithParams (params : list (string * string)).

Record Http := mkHttp { method : string; path : string; body : Body }.

Definition post (path : string) (body : Body) : Http := mkHttp "POST" path body.
Definition get_ (path : string) : Http := mkHttp "GET" path NoBody.

(** What each function of the module hands to axios.  [generateAudio]
    receives the text and does not put it in the body. *)
Definition send (r : Request) : Http :=
  match r with
  | ReqSearchTrends query niche limit =>
      post "/api/trends/search"
        (JsonObject [ ("query", VString query); ("niche", VString niche);
                      ("limit", VNumber (inject_Z limit)) ])
  | ReqSelectTrend trend => post "/api/trends/select" (TrendObject trend)
  | ReqGenerateScript topic description tone length =>
      post "/api/script/generate"
        (JsonObject [ ("query", VString topic);
                      ("description", VString description);
                      ("tone", VString tone); ("length", VString length);
                      ("use_crewai", VBool false) ])
  | ReqUpdateScript content =>
      post "/api/script/update" (JsonObject [ ("content", VString content) ])
  | ReqApproveScript => post "/api/script/approve" NoBody
  | ReqGetAvailableVoices => get_ "/api/voices"
  | ReqGenerateAudio _ voiceId stability similarityBoost =>
      post "/api/audio/generate"
        (JsonObject [ ("voice_id", VString voiceId);
                      ("stability", VNumber stability);
                      ("similarity_boost", VNumber similarityBoost) ])
  | ReqApproveAudio => post "/api/audio/approve" NoBody
  | ReqUploadAvatar file => post "/api/assets/avatar" (FormData file)
  | ReqUploadLogo file => post "/api/assets/logo" (FormData file)
  | ReqUploadBackground file => post "/api/assets/background" (FormData file)
  | ReqGenerateVideo useHeygem quality =>
      post "/api/video/generate"
        (JsonObject [ ("use_heygem", VBool useHeygem);
                      ("quality", VString quality) ])
  | ReqCreateProject name =>
      post "/api/projects/create" (NullWithParams [ ("name", name) ])
  | ReqGetOllamaModels => get_ "/api/settings/ollama/models"
  end.

End Api.

(** The request an action has sent when it suspends, if it got that
    far. *)
Definition sent {Resp A} (a : Async Resp A) (s : State) : option Api.Http :=
  match before a s with
  | (_, Resolved r) => Some (Api.send r)
  | (_, Rejected _) => None
  end.

(** ** Stage navigation *)

Lemma findIndex_steps (x : string) :
  findIndex steps x =
  if String.eqb "trends" x then 0
  else if String.eqb "script" x then 1
  else if String.eqb "audio" x then 2
  else if String.eqb "assets" x then 3
  else if String.eqb "video" x then 4
  else if String.eqb "complete" x then 5
  else -1.
Proof. reflexivity. Qed.

(** Splits on which row of [steps], if any, the string [x] names. *)
Ltac split_on a x :=
  let E := fresh "E" in
  destruct (String.eqb a x) eqn:E; [ apply String.eqb_eq in E; subst | ].

Ltac which_step x :=
  split_on "trends" x;
    [ | split_on "script" x;
      [ | split_on "audio" x;
        [ | split_on "assets" x;
          [ | split_on "video" x;
            [ | split_on "complete" x ] ] ] ] ].

(** Closes a goal about an id that matched no row, from the failed
    tests. *)
Ltac no_row :=
  cbn -[String.eqb];
  repeat match goal with H : String.eqb _ _ = false |- _ =>
    rewrite H; clear H end;
  reflexivity.

Lemma currentIndex_range (s : State) : -1 <= currentIndex s <= 5.
Proof.
  unfold currentIndex. rewrite findIndex_steps.
  repeat match goal with |- context [String.eqb ?a ?b] =>
    destruct (String.eqb a b) end; lia.
Qed.

(** [nextStep] never throws and writes [currentStep] only. *)
Lemma nextStep_frame (s : State) :
  exists x, nextStep s = (with_currentStep x s, Resolved tt).
Proof.
  destruct s as [cs pid ld er tr sel sc au ass vi vo am].
  unfold nextStep, bind, get. cbn [currentStep].
  rewrite findIndex_steps.
  which_step cs; eexists; reflexivity.
Qed.

Lemma previousStep_frame (s : State) :
  exists x, previousStep s = (with_currentStep x s, Resolved tt).
Proof.
  destruct s as [cs pid ld er tr sel sc au ass vi vo am].
  unfold previousStep, bind, get. cbn [currentStep].
  rewrite findIndex_steps.
  which_step cs; eexists; reflexivity.
Qed.

(** [nextStep] moves one row down the table unless it stands on the last
    row; from an id that is not in the table it lands on the first row. *)
Lemma nextStep_index (s : State) :
  currentIndex (state_of (nextStep s)) =
  if currentIndex s <? 5 then currentIndex s + 1 else currentIndex s.
Proof.
  destruct s as [cs pid ld er tr sel sc au ass vi vo am].
  unfold nextStep, bind, get, currentIndex. cbn [currentStep].
  rewrite (findIndex_steps cs).
  which_step cs; try reflexivity.
Qed.

Lemma previousStep_index (s : State) :
  currentIndex (state_of (previousStep s)) =
  if 0 <? currentIndex s then currentIndex s - 1 else currentIndex s.
Proof.
  destruct s as [cs pid ld er tr sel sc au ass vi vo am].
  unfold previousStep, bind, get, currentIndex. cbn [currentStep].
  rewrite (findIndex_steps cs).
  which_step cs; try reflexivity.
  no_row.
Qed.

(** C8.  [previousStep] leaves the selected trend, the script, the audio,
    the assets and the video as they were, and every other field but
    [currentStep] too; it does not throw; it steps back one stage when the
    index of the current stage is greater than zero, and otherwise leaves
    the whole state as it was. *)
Theorem previousStep_moves_stage_only (s : State) :
  let s' := state_of (previousStep s) in
  artifacts s' = artifacts s /\
  rest s' = rest s /\
  result_of (previousStep s) = Resolved tt /\
  currentIndex s' =
    (if 0 <? currentIndex s then currentIndex s - 1 else currentIndex s) /\
  (if 0 <? currentIndex s then True else s' = s).
Proof.
  cbv zeta.
  destruct (previousStep_frame s) as [x Hx].
  repeat split.
  - rewrite Hx. reflexivity.
  - rewrite Hx. reflexivity.
  - rewrite Hx. reflexivity.
  - apply previousStep_index.
  - unfold previousStep, bind, get. fold (currentIndex s).
    destruct (0 <? currentIndex s); [exact I | reflexivity].
Qed.

(** ** Editing the script *)

(** C10.  When its backend call succeeds, [updateScript content] resolves
    and replaces the content of the script; the title and the duration of
    the script, the current step, the selected trend, the audio, the assets
    and the video keep their values, and so does every remaining field. *)
Theorem updateScript_writes_content_only (content : string) (s : State) :
  let r := complete (updateScript content) (Resolved tt) s in
  let s' := state_of r in
  result_of r = Resolved tt /\
  Script.content (script s') = content /\
  Script.title (script s') = Script.title (script s) /\
  Script.duration (script s') = Script.duration (script s) /\
  currentStep s' = currentStep s /\
  selectedTrend s' = selectedTrend s /\
  audio s' = audio s /\
  assets s' = assets s /\
  video s' = video s /\
  rest s' = rest s.
Proof. cbv zeta. repeat split. Qed.

(** ** Failure *)

Lemma nextStep_eq (s : State) :
  nextStep s = (state_of (nextStep s), Resolved tt).
Proof. destruct (nextStep_frame s) as [x ->]. reflexivity. Qed.

Lemma nextStep_artifacts (s : State) :
  artifacts (state_of (nextStep s)) = artifacts s.
Proof. destruct (nextStep_frame s) as [x ->]. reflexivity. Qed.

Lemma nextStep_rest (s : State) :
  rest (state_of (nextStep s)) = rest s.
Proof. destruct (nextStep_frame s) as [x ->]. reflexivity. Qed.

(** Replaces every run of [nextStep] by the state it publishes. *)
Ltac settle_nextStep :=
  repeat match goal with
  | |- context [nextStep ?x] =>
      let y := fresh "next" in destruct (nextStep_frame x) as [y ->]
  end.

(** Unfolds one call down to the publications it makes. *)
Ltac unfold_call :=
  unfold exec, enter, resume, complete, void, before, after,
    searchTrends, selectTrend, generateScript, updateScript, approveScript,
    loadVoices, generateAudio, approveAudio, uploadAvatar, uploadLogo,
    uploadBackground, generateVideo, createProject, loadModels,
    setCurrentStep, resetError, reset,
    try_catch, bind, await, data_of, set, get, throw, ret,
    loading_started, loading_failed.

Lemma failed_exec_keeps_artifacts (c : Call) (s : State) :
  failed c s = true ->
  artifacts (state_of (enter c s)) = artifacts s /\
  artifacts (state_of (exec c s)) = artifacts s /\
  trends (state_of (exec c s)) = trends s.
Proof.
  unfold failed.
  destruct c; try destruct o as [a | e]; try destruct a;
    cbn [gateway_failed is_rejected orb];
    unfold_call; cbn -[nextStep previousStep];
    try rewrite nextStep_eq;
    try (destruct (previousStep_frame s) as [x ->]);
    try destruct (selectedTrend s);
    try destruct (falsy (Script.content (script s)));
    cbn -[nextStep]; intros H;
    solve [ discriminate H | repeat split ].
Qed.

Lemma run_snoc (cs : list Call) (c : Call) (s : State) :
  run (cs ++ [c]) s = state_of (exec c (run cs s)).
Proof. unfold run. rewrite fold_left_app. reflexivity. Qed.

(** C3.  In any sequence of calls, a call that fails (its backend call
    raised, or the call rejected) leaves the selected trend, the script,
    the audio, the assets and the video exactly as the calls before it had
    left them, both in the state it publishes while it waits for the
    backend and in the state it ends in; the list of searched trends is
    left alone as well. *)
Theorem failed_call_keeps_artifacts (cs : list Call) (c : Call) (s : State) :
  failed c (run cs s) = true ->
  artifacts (state_of (enter c (run cs s))) = artifacts (run cs s) /\
  artifacts (run (cs ++ [c]) s) = artifacts (run cs s) /\
  trends (run (cs ++ [c]) s) = trends (run cs s).
Proof.
  intros H. rewrite run_snoc. apply failed_exec_keeps_artifacts, H.
Qed.

Lemma failed_call_keeps_artifacts_witness :
  let cs := [ CallSearchTrends "AI" "tech" (Resolved [sample_trend]);
              CallSelectTrend sample_trend (Resolved tt) ] in
  let c := CallGenerateScript "professional" "short" (Rejected timeout_error) in
  failed c (run cs initial) = true /\
  artifacts (state_of (enter c (run cs initial))) =
    artifacts (run cs initial) /\
  artifacts (run (cs ++ [c]) initial) = artifacts (run cs initial) /\
  trends (run (cs ++ [c]) initial) = trends (run cs initial).
Proof.
  cbv zeta. split.
  - reflexivity.
  - apply (failed_call_keeps_artifacts
             [ CallSearchTrends "AI" "tech" (Resolved [sample_trend]);
               CallSelectTrend sample_trend (Resolved tt) ]
             (CallGenerateScript "professional" "short"
                (Rejected timeout_error))
             initial).
    reflexivity.
Defined.

(** ** The busy flag *)

Lemma nextStep_isLoading (s : State) :
  isLoading (state_of (nextStep s)) = isLoading s.
Proof. destruct (nextStep_frame s) as [x ->]. reflexivity. Qed.

(** C7.  For a call that raises the busy flag on entry: whenever it resumes
    after its backend call, whether that call resolved or raised and
    whatever the state has become in between, the flag is down when the
    call ends; and run to completion from any state in which it gets past
    its local checks, it ends with the flag down. *)
Theorem busy_flag_released (c : Call) (s : State) :
  raises_busy c ->
  isLoading (state_of (resume c s)) = false /\
  (result_of (enter c s) = Resolved tt ->
   isLoading (state_of (exec c s)) = false).
Proof.
  intros [s0 [H0 H1]].
  destruct c; try destruct o as [a | e]; try destruct a;
    revert H1; unfold_call; cbn -[nextStep previousStep];
    try (destruct (nextStep_frame s0) as [x0 ->]);
    try (destruct (previousStep_frame s0) as [x0 ->]);
    try destruct (selectedTrend s0);
    try destruct (falsy (Script.content (script s0)));
    cbn -[nextStep]; try rewrite H0; try discriminate; intros _;
    settle_nextStep;
    try destruct (selectedTrend s);
    try destruct (falsy (Script.content (script s)));
    (split; [ reflexivity | intros H; solve [ reflexivity | discriminate H ] ]).
Qed.

Lemma busy_flag_released_witness :
  let c := CallGenerateVideo true "high" (Rejected timeout_error) in
  raises_busy c /\
  result_of (enter c initial) = Resolved tt /\
  isLoading (state_of (resume c initial)) = false /\
  isLoading (state_of (exec c initial)) = false.
Proof.
  cbv zeta.
  assert (B : raises_busy
                (CallGenerateVideo true "high" (Rejected timeout_error))).
  { exists initial. split; reflexivity. }
  destruct (busy_flag_released
              (CallGenerateVideo true "high" (Rejected timeout_error))
              initial B) as [R E].
  split; [exact B | ].
  split; [reflexivity | ].
  split; [exact R | apply E; reflexivity].
Defined.

(** ** Reachable states *)

Lemma reachable_run (cs : list Call) (s : State) :
  reachable s -> reachable (run cs s).
Proof.
  revert s. induction cs as [| c cs IH]; intros s H.
  - exact H.
  - apply (IH (state_of (exec c s))). constructor. exact H.
Qed.

(** ** Selecting a trend *)



Lemma nextStep_as_update (s : State) :
  nextStep s =
  (with_currentStep (id_after_nextStep (currentStep s)) s, Resolved tt).
Proof.
  destruct s as [cs pid ld er tr sel sc au ass vi vo am].
  unfold nextStep, bind, get, id_after_nextStep. cbn [currentStep].
  rewrite (findIndex_steps cs).
  which_step cs; reflexivity.
Qed.

(** C9, as stated, fails: a trend that is not among the results of the
    last search is accepted; it becomes the selected trend and the stage
    moves on. *)
Lemma selectTrend_accepts_unlisted_trend :
  let r := complete (selectTrend other_trend) (Resolved tt) searched in
  reachable searched /\
  trends searched = [sample_trend] /\
  ~ In other_trend (trends searched) /\
  result_of r = Resolved tt /\
  selectedTrend searched = None /\
  selectedTrend (state_of r) = Some other_trend /\
  currentStep searched = "trends" /\
  currentStep (state_of r) = "script".
Proof.
  cbv zeta. split; [apply reachable_run; constructor | ].
  split; [reflexivity | ].
  split.
  - intros [H | []]. discriminate H.
  - repeat split.
Qed.

(** C9, amended.  [selectTrend] never reads the list of searched trends:
    run on a state whose list has been replaced by any other, it does the
    same and ends the same way.  Whether it fails is decided by its
    backend call alone: if that resolves, the trend is committed; if it
    raises, the call rejects with that error, records its message, and
    changes neither the selected trend nor the current step. *)
Theorem selectTrend_ignores_searched_trends
    (trend : Trend.t) (o : Outcome unit) (l : list Trend.t) (s : State) :
  let r := complete (selectTrend trend) o s in
  complete (selectTrend trend) o (with_trends l s) =
    (with_trends l (state_of r), result_of r) /\
  match o with
  | Resolved _ =>
      result_of r = Resolved tt /\
      selectedTrend (state_of r) = Some trend
  | Rejected e =>
      result_of r = Rejected e /\
      selectedTrend (state_of r) = selectedTrend s /\
      currentStep (state_of r) = currentStep s /\
      error (state_of r) = Some (message e)
  end.
Proof.
  cbv zeta. destruct o as [[] | e]; unfold_call; cbn -[nextStep];
    rewrite ?nextStep_as_update; repeat split.
Qed.

(** ** Moving forward *)

(** C2, as stated, fails: in the initial state, with no trend selected,
    [nextStep] (the stepper's Skip button) moves from the trends step to
    the script step, and [setCurrentStep] jumps straight to the last step;
    neither is rejected. *)
Lemma forward_navigation_unguarded :
  let r1 := exec CallNextStep initial in
  let r2 := exec (CallSetCurrentStep "complete") initial in
  reachable initial /\
  currentIndex initial = 0 /\
  guard 0 initial = false /\
  (result_of r1 = Resolved tt /\
   currentIndex (state_of r1) = 1 /\
   guard 0 (state_of r1) = false) /\
  (result_of r2 = Resolved tt /\
   currentIndex (state_of r2) = 5 /\
   guard 0 (state_of r2) = false /\
   guard 1 (state_of r2) = false /\
   guard 2 (state_of r2) = false /\
   guard 3 (state_of r2) = false /\
   guard 4 (state_of r2) = false).
Proof. cbv zeta. split; [constructor | repeat split]. Qed.

(** C2, amended.  Moving the stage pointer checks no artifact.  [nextStep]
    is never rejected, moves one stage on unless the current stage is the
    last, lands on a stage that depends on the current step alone, and
    changes no artifact; [setCurrentStep step] is never rejected, makes
    [step] the current step, and changes no artifact. *)
Theorem navigation_checks_no_artifact (step : string) (s : State) :
  (result_of (nextStep s) = Resolved tt /\
   currentIndex (state_of (nextStep s)) =
     (if currentIndex s <? 5 then currentIndex s + 1 else currentIndex s) /\
   currentStep (state_of (nextStep s)) = id_after_nextStep (currentStep s) /\
   artifacts (state_of (nextStep s)) = artifacts s /\
   rest (state_of (nextStep s)) = rest s) /\
  (result_of (setCurrentStep step s) = Resolved tt /\
   currentStep (state_of (setCurrentStep step s)) = step /\
   artifacts (state_of (setCurrentStep step s)) = artifacts s /\
   rest (state_of (setCurrentStep step s)) = rest s).
Proof.
  split; [ | repeat split].
  split; [rewrite nextStep_as_update; reflexivity | ].
  split; [apply nextStep_index | ].
  rewrite nextStep_as_update. repeat split.
Qed.

(** ** Approving the script *)

(** C4, as stated, fails: with empty script text, [approveScript] resolves
    when its backend call does, and the stage moves from the script step to
    the audio step. *)
Lemma approveScript_accepts_empty_script :
  let r := complete approveScript (Resolved tt) skipped in
  reachable skipped /\
  currentStep skipped = "script" /\
  Script.content (script skipped) = "" /\
  result_of r = Resolved tt /\
  currentStep (state_of r) = "audio".
Proof. cbv zeta. split; [apply reachable_run; constructor | repeat split]. Qed.

(** C4, amended.  [approveScript] never reads the script: run on a state
    whose script has been replaced by any other, it does the same and ends
    the same way.  If its backend call resolves, it resolves, changes no
    artifact and moves one stage on unless the current stage is the last
    (from the script step, to the audio step).  If its backend call raises,
    it rejects with that error, records its message, and changes neither
    the current step nor any artifact. *)
Theorem approveScript_follows_backend
    (o : Outcome unit) (sc : Script.t) (s : State) :
  let r := complete approveScript o s in
  complete approveScript o (with_script sc s) =
    (with_script sc (state_of r), result_of r) /\
  artifacts (state_of r) = artifacts s /\
  match o with
  | Resolved _ =>
      result_of r = Resolved tt /\
      currentIndex (state_of r) =
        (if currentIndex s <? 5 then currentIndex s + 1 else currentIndex s) /\
      currentStep
        (state_of (complete approveScript o (with_currentStep "script" s))) =
        "audio"
  | Rejected e =>
      result_of r = Rejected e /\
      currentStep (state_of r) = currentStep s /\
      error (state_of r) = Some (message e)
  end.
Proof.
  cbv zeta. destruct o as [[] | e]; unfold_call; cbn -[nextStep currentIndex].
  - split; [rewrite !nextStep_as_update; reflexivity | ].
    split; [rewrite nextStep_as_update; reflexivity | ].
    split; [rewrite nextStep_as_update; reflexivity | ].
    split; [ | reflexivity].
    rewrite nextStep_eq. apply nextStep_index.
  - repeat split.
Qed.

(** ** Rendering the video *)



(** ** The recorded error *)




(** ** Two sessions, run *)

(** Searching and picking the first result lands on the script step with
    no script yet. *)
Example search_then_select :
  let s := run [ CallSearchTrends "AI" "tech"
                   (Resolved [sample_trend; other_trend]);
                 CallSelectTrend sample_trend (Resolved tt) ] initial in
  currentStep s = "script" /\
  selectedTrend s = Some sample_trend /\
  Script.content (script s) = "" /\
  isLoading s = false /\
  error s = None.
Proof. cbv zeta. repeat split. Qed.

(** Generating audio does not leave the audio step; approving it does. *)
Example audio_waits_for_approval :
  let s1 := run [ CallApproveScript (Resolved tt);
                  CallGenerateAudio "voice-1" (1 # 2)%Q (3 # 4)%Q
                    (Resolved (Some sample_audio)) ] scripted in
  let s2 := run [ CallApproveAudio (Resolved tt) ] s1 in
  currentStep s1 = "audio" /\
  Audio.path (audio s1) = "output/voice.mp3" /\
  currentStep s2 = "assets".
Proof. cbv zeta. repeat split. Qed.

(** ** More on navigation *)

Lemma exec_nextStep (s : State) :
  state_of (exec CallNextStep s) = state_of (nextStep s).
Proof. unfold exec, enter, resume, bind. rewrite nextStep_eq. reflexivity. Qed.

Lemma exec_previousStep (s : State) :
  state_of (exec CallPreviousStep s) = state_of (previousStep s).
Proof.
  unfold exec, enter, resume, bind.
  destruct (previousStep_frame s) as [x ->]. reflexivity.
Qed.

Lemma run_nil (s : State) : run [] s = s.
Proof. reflexivity. Qed.

Lemma run_cons (c : Call) (cs : list Call) (s : State) :
  run (c :: cs) s = run cs (state_of (exec c s)).
Proof. reflexivity. Qed.

(** Pressing forward [n] times moves [n] rows down and stops on the last
    row; from an id outside the table the first press lands on the first
    row.  Pressing back [n] times moves [n] rows up and stops on the first
    row; from an id outside the table it does nothing. *)
Theorem repeated_steps_saturate (n : nat) (s : State) :
  currentIndex (run (repeat CallNextStep n) s) =
    Z.min 5 (currentIndex s + Z.of_nat n) /\
  currentIndex (run (repeat CallPreviousStep n) s) =
    (if currentIndex s <? 0 then currentIndex s
     else Z.max 0 (currentIndex s - Z.of_nat n)).
Proof.
  split; revert s; induction n as [| n IH]; intros s;
    pose proof (currentIndex_range s) as R.
  - cbn [repeat]. rewrite run_nil. lia.
  - cbn [repeat]. rewrite run_cons, IH, exec_nextStep, nextStep_index.
    destruct (currentIndex s <? 5) eqn:E;
      [apply Z.ltb_lt in E | apply Z.ltb_ge in E]; lia.
  - cbn [repeat]. rewrite run_nil. destruct (currentIndex s <? 0) eqn:E;
      [reflexivity | apply Z.ltb_ge in E; lia].
  - cbn [repeat]. rewrite run_cons, IH, exec_previousStep, previousStep_index.
    destruct (0 <? currentIndex s) eqn:E;
      [apply Z.ltb_lt in E | apply Z.ltb_ge in E];
      destruct (currentIndex s <? 0) eqn:E1;
      try (apply Z.ltb_lt in E1); try (apply Z.ltb_ge in E1);
      repeat match goal with
      | |- context [?a <? ?b] =>
          let E2 := fresh in
          destruct (a <? b) eqn:E2;
            [apply Z.ltb_lt in E2 | apply Z.ltb_ge in E2]
      end; lia.
Qed.

(** On a row that is not the last, forward then back restores the whole
    state; on a row that is not the first, so does back then forward. *)
Theorem next_previous_round_trip (s : State) :
  (0 <= currentIndex s < 5 ->
   state_of (previousStep (state_of (nextStep s))) = s) /\
  (0 < currentIndex s ->
   state_of (nextStep (state_of (previousStep s))) = s).
Proof.
  destruct s as [cs pid ld er tr sel sc au ass vi vo am].
  unfold currentIndex. cbn [currentStep]. rewrite (findIndex_steps cs).
  split; intros H; which_step cs; try reflexivity; try (exfalso; lia).
Qed.

Lemma next_previous_round_trip_witness :
  (0 <= currentIndex scripted < 5 /\
   state_of (previousStep (state_of (nextStep scripted))) = scripted) /\
  (0 < currentIndex scripted /\
   state_of (nextStep (state_of (previousStep scripted))) = scripted).
Proof.
  split.
  - split; [vm_compute; split; [discriminate | reflexivity] | ].
    apply (proj1 (next_previous_round_trip scripted)).
    vm_compute. split; [discriminate | reflexivity].
  - split; [reflexivity | ].
    apply (proj2 (next_previous_round_trip scripted)). reflexivity.
Defined.

Lemma listed_after_nextStep (x : string) :
  listed (id_after_nextStep x) = true.
Proof.
  unfold id_after_nextStep. rewrite (findIndex_steps x).
  which_step x; reflexivity.
Qed.

Lemma previousStep_listed (s : State) :
  listed (currentStep s) = true ->
  listed (currentStep (state_of (previousStep s))) = true.
Proof.
  destruct s as [cs pid ld er tr sel sc au ass vi vo am].
  unfold previousStep, bind, get. cbn [currentStep].
  rewrite (findIndex_steps cs).
  which_step cs; try reflexivity.
  cbn -[listed]. trivial.
Qed.

Lemma exec_listed (c : Call) (s : State) :
  stays_listed c = true ->
  listed (currentStep s) = true ->
  listed (currentStep (state_of (exec c s))) = true.
Proof.
  intros Hc Hs.
  destruct c; try destruct o as [a | e]; try destruct a;
    try (rewrite exec_nextStep, nextStep_as_update;
         apply listed_after_nextStep);
    try (rewrite exec_previousStep; apply previousStep_listed, Hs);
    unfold_call; cbn -[nextStep listed];
    rewrite ?nextStep_as_update;
    try destruct (selectedTrend s);
    try destruct (falsy (Script.content (script s)));
    cbn -[listed];
    solve [ exact Hs | exact Hc | apply listed_after_nextStep | reflexivity ].
Qed.

(** As long as [setCurrentStep] is only given ids of the step table (the
    buttons of the layout give no other), the current step stays in the
    table through any sequence of calls, whatever the backend answers. *)
Theorem current_step_stays_listed (cs : list Call) (s : State) :
  forallb stays_listed cs = true ->
  listed (currentStep s) = true ->
  0 <= currentIndex (run cs s) <= 5.
Proof.
  intros Hcs Hs.
  assert (L : listed (currentStep (run cs s)) = true).
  { revert s Hs. induction cs as [| c cs IH]; intros s Hs.
    - exact Hs.
    - cbn [forallb] in Hcs. apply andb_prop in Hcs as [Hc Hcs].
      rewrite run_cons. apply (IH Hcs). apply exec_listed; assumption. }
  pose proof (currentIndex_range (run cs s)) as R.
  unfold listed in L. apply Z.leb_le in L. unfold currentIndex in *. lia.
Qed.

Lemma current_step_stays_listed_witness :
  let cs := [ CallSetCurrentStep "video"; CallPreviousStep;
              CallApproveAudio (Resolved tt); CallReset; CallNextStep ] in
  forallb stays_listed cs = true /\
  listed (currentStep initial) = true /\
  0 <= currentIndex (run cs initial) <= 5.
Proof.
  cbv zeta. split; [reflexivity | split; [reflexivity | ] ].
  apply (current_step_stays_listed
           [ CallSetCurrentStep "video"; CallPreviousStep;
             CallApproveAudio (Resolved tt); CallReset; CallNextStep ]
           initial); reflexivity.
Defined.

(** ** Who writes what *)

Lemma perform_removeAsset (type : AssetKind) (s : State) :
  state_of (perform (RemoveAsset type) s) =
  with_assets
    match type with
    | Avatar =>
        Assets.mk None (Assets.logo (assets s)) (Assets.background (assets s))
    | Logo =>
        Assets.mk (Assets.avatar (assets s)) None
          (Assets.background (assets s))
    | Background =>
        Assets.mk (Assets.avatar (assets s)) (Assets.logo (assets s)) None
    end s.
Proof. destruct type; reflexivity. Qed.

(** Each artifact has its own writers, among the calls of the store's
    actions and the asset screen's [removeAsset]: apart from [reset], the
    selected trend changes only in a [selectTrend] that succeeded, the
    script only in a [generateScript] or an [updateScript] that succeeded,
    the audio only in a [generateAudio] that succeeded, the assets only in
    an upload that succeeded or in a [removeAsset], the video only in a
    [generateVideo] that succeeded. *)
Theorem artifact_writers (ev : Event) (s : State) :
  let s' := state_of (perform ev s) in
  (selectedTrend s' = selectedTrend s \/ ev = StoreCall CallReset \/
   exists t, ev = StoreCall (CallSelectTrend t (Resolved tt))) /\
  (script s' = script s \/ ev = StoreCall CallReset \/
   (exists tone len d,
    ev = StoreCall (CallGenerateScript tone len (Resolved (Some d)))) \/
   (exists content,
    ev = StoreCall (CallUpdateScript content (Resolved tt)))) /\
  (audio s' = audio s \/ ev = StoreCall CallReset \/
   exists v st sb d,
   ev = StoreCall (CallGenerateAudio v st sb (Resolved (Some d)))) /\
  (assets s' = assets s \/ ev = StoreCall CallReset \/
   (exists f d, ev = StoreCall (CallUploadAvatar f (Resolved (Some d)))) \/
   (exists f d, ev = StoreCall (CallUploadLogo f (Resolved (Some d)))) \/
   (exists f d,
    ev = StoreCall (CallUploadBackground f (Resolved (Some d)))) \/
   (exists type, ev = RemoveAsset type)) /\
  (video s' = video s \/ ev = StoreCall CallReset \/
   exists h q d,
   ev = StoreCall (CallGenerateVideo h q (Resolved (Some d)))).
Proof.
  cbv zeta. destruct ev as [c | type].
  - cbn [perform].
    destruct c; try destruct o as [a | e]; try destruct a;
      try (rewrite exec_previousStep;
           destruct (previousStep_frame s) as [x ->]);
      unfold_call; cbn -[nextStep];
      rewrite ?nextStep_as_update;
      try (destruct (selectedTrend s) eqn:Hsel);
      try destruct (falsy (Script.content (script s)));
      cbn; rewrite ?Hsel;
      repeat split;
      solve [ left; reflexivity | right; left; reflexivity | eauto 10 ].
  - rewrite perform_removeAsset. cbn. repeat split;
      solve [ left; reflexivity | eauto 10 ].
Qed.

(** The current step changes only through [setCurrentStep], [nextStep],
    [previousStep], [reset], and a [selectTrend], [approveScript] or
    [approveAudio] that succeeded: generating, editing, uploading, loading
    and creating a project never move the wizard. *)
Theorem stage_writers (c : Call) (s : State) :
  currentStep (state_of (exec c s)) = currentStep s \/
  (exists step, c = CallSetCurrentStep step) \/
  c = CallNextStep \/ c = CallPreviousStep \/ c = CallReset \/
  (exists t, c = CallSelectTrend t (Resolved tt)) \/
  c = CallApproveScript (Resolved tt) \/
  c = CallApproveAudio (Resolved tt).
Proof.
  destruct c; try destruct o as [a | e]; try destruct a; try destruct a;
    try solve [ right; eauto 10 ];
    left; unfold_call; cbn;
    try destruct (selectedTrend s);
    try destruct (falsy (Script.content (script s)));
    reflexivity.
Qed.

(** ** Uploads *)

(** Successful uploads of different kinds commute: in either order they
    end in the same state.  After one of each, in any order, the assets are
    exactly the three references the backend returned. *)
Theorem uploads_commute
    (f1 f2 f3 : File) (a l b : option string) (s : State) :
  let avatar :=
    fun x => state_of (complete (uploadAvatar f1) (Resolved (Some a)) x) in
  let logo :=
    fun x => state_of (complete (uploadLogo f2) (Resolved (Some l)) x) in
  let background :=
    fun x => state_of (complete (uploadBackground f3) (Resolved (Some b)) x) in
  avatar (logo s) = logo (avatar s) /\
  avatar (background s) = background (avatar s) /\
  logo (background s) = background (logo s) /\
  assets (avatar (logo (background s))) = Assets.mk a l b /\
  assets (background (logo (avatar s))) = Assets.mk a l b.
Proof. cbv zeta. repeat split. Qed.

(** ** Calls that stop before the backend *)

(** A call that rejects before it reaches the backend changes nothing at
    all: no error is recorded and the busy flag is not raised.  Only two
    calls do so: [generateScript] when no trend is selected, and
    [generateAudio] when the script text is the empty string.  Both always
    do so in that case, whatever the backend would have answered. *)
Theorem rejected_before_backend (c : Call) (s : State) :
  (forall e, result_of (enter c s) = Rejected e ->
   exec c s = (s, Rejected e) /\
   ((selectedTrend s = None /\ e = mkError "No trend selected" /\
     exists tone len o, c = CallGenerateScript tone len o) \/
    (Script.content (script s) = "" /\ e = mkError "No script available" /\
     exists v st sb o, c = CallGenerateAudio v st sb o))) /\
  (forall tone len o,
   selectedTrend s = None ->
   exec (CallGenerateScript tone len o) s =
     (s, Rejected (mkError "No trend selected"))) /\
  (forall v st sb o,
   Script.content (script s) = "" ->
   exec (CallGenerateAudio v st sb o) s =
     (s, Rejected (mkError "No script available"))).
Proof.
  split; [ | split].
  - intros e.
    destruct c; try destruct o as [a | e0]; try destruct a;
      try (unfold enter, bind; rewrite nextStep_eq; discriminate);
      try (unfold enter, bind;
           destruct (previousStep_frame s) as [x ->]; discriminate);
      unfold_call; cbn;
      try (destruct (selectedTrend s) eqn:Hsel);
      try (destruct (falsy (Script.content (script s))) eqn:Hf);
      cbn; intros H; try discriminate H;
      injection H as <-;
      (split; [reflexivity | ]);
      try (apply String.eqb_eq in Hf);
      solve [ left; eauto 8 | right; eauto 8 ].
  - intros tone len o H. unfold_call. rewrite H. reflexivity.
  - intros v st sb o H. unfold_call. rewrite H. reflexivity.
Qed.

Lemma rejected_before_backend_witness :
  let c := CallGenerateAudio "voice-1" (1 # 2)%Q (3 # 4)%Q
             (Resolved (Some sample_audio)) in
  result_of (enter c skipped) = Rejected (mkError "No script available") /\
  exec c skipped = (skipped, Rejected (mkError "No script available")) /\
  selectedTrend initial = None /\
  exec (CallGenerateScript "casual" "short" (Resolved (Some sample_script)))
    initial =
    (initial, Rejected (mkError "No trend selected")) /\
  Script.content (script skipped) = "".
Proof.
  cbv zeta.
  split; [reflexivity | ].
  split.
  - apply (proj1 (rejected_before_backend
                    (CallGenerateAudio "voice-1" (1 # 2)%Q (3 # 4)%Q
                       (Resolved (Some sample_audio))) skipped)
             (mkError "No script available")).
    reflexivity.
  - split; [reflexivity | ].
    split; [ | reflexivity].
    apply (proj1 (proj2 (rejected_before_backend CallReset initial))).
    reflexivity.
Defined.

(** ** Loading the voice and model lists *)

(** [loadVoices] and [loadModels] never reject: when the backend call
    raises they leave the whole state as it was, the error field included,
    and when it resolves they replace their own list and nothing else.
    The two lists in turn influence no other action: replacing the voices
    before any call but [loadVoices], or the models before any call but
    [loadModels], gives the same result and the same state as replacing
    them after it, [reset] included. *)
Theorem loads_are_harmless
    (ov : Outcome (list Voice.t)) (om : Outcome (list string))
    (c : Call) (s : State) :
  result_of (complete loadVoices ov s) = Resolved tt /\
  result_of (complete loadModels om s) = Resolved tt /\
  state_of (complete loadVoices ov s) =
    match ov with
    | Resolved data => with_voices data s
    | Rejected _ => s
    end /\
  state_of (complete loadModels om s) =
    match om with
    | Resolved data => with_availableModels data s
    | Rejected _ => s
    end /\
  ((forall o, c <> CallLoadVoices o) ->
   forall data,
   exec c (with_voices data s) =
     (with_voices data (state_of (exec c s)), result_of (exec c s))) /\
  ((forall o, c <> CallLoadModels o) ->
   forall data,
   exec c (with_availableModels data s) =
     (with_availableModels data (state_of (exec c s)),
      result_of (exec c s))).
Proof.
  split; [destruct ov; reflexivity | ].
  split; [destruct om; reflexivity | ].
  split; [destruct ov; reflexivity | ].
  split; [destruct om; reflexivity | ].
  split; intros H data;
    destruct c; try destruct o as [a | e]; try destruct a;
    try (exfalso; eapply H; reflexivity);
    try (unfold exec, enter, resume, bind, previousStep, get;
         cbn -[goto findIndex];
         destruct (0 <? findIndex steps (currentStep s)); [ | reflexivity];
         unfold goto;
         destruct (item steps (findIndex steps (currentStep s) - 1));
         reflexivity);
    unfold_call; cbn -[nextStep];
    rewrite ?nextStep_as_update;
    try destruct (selectedTrend s);
    try destruct (falsy (Script.content (script s)));
    reflexivity.
Qed.

Lemma loads_are_harmless_witness :
  let c := CallApproveScript (Resolved tt) in
  let v := [ Voice.mk "voice-1" "Amy" ] in
  (forall o, c <> CallLoadVoices o) /\
  (forall o, c <> CallLoadModels o) /\
  exec c (with_voices v scripted) =
    (with_voices v (state_of (exec c scripted)), result_of (exec c scripted)) /\
  exec c (with_availableModels [ "llama3" ] scripted) =
    (with_availableModels [ "llama3" ] (state_of (exec c scripted)),
     result_of (exec c scripted)).
Proof.
  cbv zeta.
  assert (N1 : forall o, CallApproveScript (Resolved tt) <> CallLoadVoices o)
    by (intros o; discriminate).
  assert (N2 : forall o, CallApproveScript (Resolved tt) <> CallLoadModels o)
    by (intros o; discriminate).
  pose proof (loads_are_harmless (Resolved []) (Resolved [])
                (CallApproveScript (Resolved tt)) scripted)
    as [_ [_ [_ [_ [V M] ] ] ] ].
  split; [exact N1 | ].
  split; [exact N2 | ].
  split; [apply (V N1) | apply (M N2)].
Defined.

(** The remaining lists and the project id have their own writers too:
    apart from [reset], the searched trends change only in a
    [searchTrends] that succeeded and the project id only in a
    [createProject] that succeeded; the voices change only in a
    [loadVoices] that succeeded and the models only in a [loadModels] that
    succeeded, not even in [reset]. *)
Theorem list_writers (c : Call) (s : State) :
  let s' := state_of (exec c s) in
  (trends s' = trends s \/ c = CallReset \/
   exists q n d, c = CallSearchTrends q n (Resolved d)) /\
  (projectId s' = projectId s \/ c = CallReset \/
   exists n d, c = CallCreateProject n (Resolved (Some d))) /\
  (voices s' = voices s \/ exists d, c = CallLoadVoices (Resolved d)) /\
  (availableModels s' = availableModels s \/
   exists d, c = CallLoadModels (Resolved d)).
Proof.
  cbv zeta.
  destruct c; try destruct o as [a | e]; try destruct a;
    try (rewrite exec_previousStep;
         destruct (previousStep_frame s) as [x ->]);
    unfold_call; cbn -[nextStep];
    rewrite ?nextStep_as_update;
    try destruct (selectedTrend s);
    try destruct (falsy (Script.content (script s)));
    cbn;
    repeat split;
    solve [ left; reflexivity | right; left; reflexivity | eauto 8 ].
Qed.

(** ** Starting over *)

(** [reset] puts every field back to its initial value except the lists
    of voices and of models, which it keeps; a second [reset] changes
    nothing more; and the New Project button, which calls [reset] and then
    [setCurrentStep('trends')], ends in the state [reset] alone ends in. *)
Theorem reset_restores_initial (s : State) :
  state_of (reset s) =
    with_voices (voices s) (with_availableModels (availableModels s) initial) /\
  state_of (reset (state_of (reset s))) = state_of (reset s) /\
  VideoPreview.handleNewProject s = reset s.
Proof. repeat split. Qed.

(** ** Between calls *)

Lemma exec_keeps_idle (c : Call) (s : State) :
  isLoading s = false -> isLoading (state_of (exec c s)) = false.
Proof.
  intros H.
  destruct c; try destruct o as [a | e]; try destruct a;
    try (rewrite exec_previousStep;
         destruct (previousStep_frame s) as [x ->]);
    unfold_call; cbn -[nextStep];
    rewrite ?nextStep_as_update;
    try destruct (selectedTrend s);
    try destruct (falsy (Script.content (script s)));
    cbn; solve [ exact H | reflexivity ].
Qed.

Lemma exec_keeps_progress (c : Call) (s : State) :
  video s = empty_video \/ Video.progress (video s) = 100 ->
  video (state_of (exec c s)) = empty_video \/
  Video.progress (video (state_of (exec c s))) = 100.
Proof.
  intros H.
  destruct c; try destruct o as [a | e]; try destruct a;
    try (rewrite exec_previousStep;
         destruct (previousStep_frame s) as [x ->]);
    unfold_call; cbn -[nextStep];
    rewrite ?nextStep_as_update;
    try destruct (selectedTrend s);
    try destruct (falsy (Script.content (script s)));
    cbn; solve [ exact H | left; reflexivity | right; reflexivity ].
Qed.

(** Between calls that run one after the other, the busy flag is down, and
    the video is either the empty initial one or carries progress 100:
    no call leaves a progress in between. *)
Theorem idle_between_calls (s : State) :
  reachable s ->
  isLoading s = false /\
  (video s = empty_video \/ Video.progress (video s) = 100).
Proof.
  induction 1 as [| c s _ [IH1 IH2]].
  - split; [reflexivity | left; reflexivity].
  - split; [apply exec_keeps_idle, IH1 | apply exec_keeps_progress, IH2].
Qed.

Lemma idle_between_calls_witness :
  reachable scripted /\
  isLoading scripted = false /\
  (video scripted = empty_video \/ Video.progress (video scripted) = 100).
Proof.
  assert (R : reachable scripted) by (apply reachable_run; constructor).
  split; [exact R | apply (idle_between_calls scripted R)].
Defined.

(** ** The stepper *)

(** The Previous button is disabled exactly when [previousStep] would
    change nothing.  The Skip button, when enabled, always changes the
    step and never lands on the last one: it is already disabled on the
    video step, from which [nextStep] would go on. *)
Theorem stepper_buttons_match_store (s : State) :
  (WorkflowStepper.previousDisabled s = true <->
   state_of (previousStep s) = s) /\
  (WorkflowStepper.skipDisabled s = false ->
   currentStep (state_of (nextStep s)) <> currentStep s /\
   currentStep (state_of (nextStep s)) <> "complete") /\
  (currentIndex s = 4 ->
   WorkflowStepper.skipDisabled s = true /\
   currentStep (state_of (nextStep s)) = "complete").
Proof.
  destruct s as [cs pid ld er tr sel sc au ass vi vo am].
  unfold WorkflowStepper.previousDisabled, WorkflowStepper.skipDisabled,
    previousStep, nextStep, bind, get, currentIndex.
  cbn [currentStep]. rewrite (findIndex_steps cs).
  split; [ | split].
  - which_step cs; cbn; split; intros H;
      solve [ reflexivity | discriminate H ].
  - which_step cs; cbn; intros H; try discriminate H;
      split; try discriminate.
    intros <-. cbn in E. discriminate E.
  - which_step cs; cbn; intros H; try discriminate H.
    split; reflexivity.
Qed.

Lemma stepper_buttons_match_store_witness :
  (WorkflowStepper.previousDisabled initial = true /\
   state_of (previousStep initial) = initial) /\
  (WorkflowStepper.skipDisabled initial = false /\
   currentStep (state_of (nextStep initial)) <> currentStep initial /\
   currentStep (state_of (nextStep initial)) <> "complete") /\
  (currentIndex skipped_to_video = 4 /\
   WorkflowStepper.skipDisabled skipped_to_video = true /\
   currentStep (state_of (nextStep skipped_to_video)) = "complete").
Proof.
  split; [ | split].
  - split; [reflexivity | ].
    apply (proj1 (proj1 (stepper_buttons_match_store initial))). reflexivity.
  - split; [reflexivity | ].
    apply (proj1 (proj2 (stepper_buttons_match_store initial))). reflexivity.
  - split; [reflexivity | ].
    apply (proj2 (proj2 (stepper_buttons_match_store skipped_to_video))).
    reflexivity.
Defined.

(** Of the rows the stepper draws, the one marked active is the one at the
    position of the current step, and every row carries exactly one of the
    three marks active, completed, pending: the rows before the current
    step are completed, the rows after it pending.  On the last step, which
    is not drawn, every row is completed; on an id outside the table every
    row is pending. *)
Theorem stepper_marks (s : State) (i : nat) (st : Step.t) :
  nth_error WorkflowStepper.displayed i = Some st ->
  WorkflowStepper.isActive s st = (currentIndex s =? Z.of_nat i) /\
  (Nat.b2n (WorkflowStepper.isActive s st) +
   Nat.b2n (WorkflowStepper.isCompleted s (Z.of_nat i)) +
   Nat.b2n (WorkflowStepper.isPending s (Z.of_nat i)) = 1)%nat.
Proof.
  intros H.
  assert (A : WorkflowStepper.isActive s st = (currentIndex s =? Z.of_nat i)).
  { destruct s as [cs pid ld er tr sel sc au ass vi vo am].
    unfold WorkflowStepper.isActive, currentIndex. cbn [currentStep].
    rewrite (findIndex_steps cs), String.eqb_sym.
    do 5 (destruct i as [| i];
          [ injection H as <-; cbn [Step.id]; which_step cs;
            try reflexivity;
            repeat match goal with E : String.eqb _ _ = false |- _ =>
              rewrite E; clear E end;
            reflexivity | ]).
    destruct i; discriminate H. }
  split; [exact A | ].
  rewrite A. unfold WorkflowStepper.isCompleted, WorkflowStepper.isPending.
  destruct (Z.eqb_spec (currentIndex s) (Z.of_nat i));
    destruct (Z.ltb_spec (Z.of_nat i) (currentIndex s));
    destruct (Z.ltb_spec (currentIndex s) (Z.of_nat i));
    cbn; lia.
Qed.

Lemma stepper_marks_witness :
  nth_error WorkflowStepper.displayed 1 = Some (Step.mk "script" "Script"
                                                  "Generate your script") /\
  WorkflowStepper.isActive scripted
    (Step.mk "script" "Script" "Generate your script") = true /\
  WorkflowStepper.isCompleted scripted 1 = false /\
  WorkflowStepper.isPending scripted 1 = false.
Proof.
  pose proof (stepper_marks scripted 1
                (Step.mk "script" "Script" "Generate your script")
                eq_refl) as [A _].
  split; [reflexivity | ].
  split; [rewrite A; reflexivity | split; reflexivity].
Defined.

(** ** Approving from the script editor *)

(** With unsaved changes, the editor's Approve button saves and then
    approves whether or not the save went through.  If the save fails and
    the approval succeeds, the wizard moves on with the script the store
    had, the edit is still marked unsaved, the save's error stays recorded,
    and the two toasts are the failure of the save followed by the success
    of the approval.  If the save succeeds, the stored text is the edited
    text whatever the approval does.  Without unsaved changes the button
    only approves. *)
Theorem editor_approves_after_failed_save
    (l : ScriptEditor.Local) (s : State) :
  (ScriptEditor.hasChanges l = true ->
   forall e,
   let r := ScriptEditor.handleApprove (Rejected e) (Resolved tt) l s in
   script (fst (fst r)) = script s /\
   currentIndex (fst (fst r)) =
     (if currentIndex s <? 5 then currentIndex s + 1 else currentIndex s) /\
   error (fst (fst r)) = Some (message e) /\
   snd (fst r) = l /\
   snd r = [ ToastError "Failed to save script";
             ToastSuccess "Script approved!" ]) /\
  (ScriptEditor.hasChanges l = true ->
   forall o,
   let r := ScriptEditor.handleApprove (Resolved tt) o l s in
   Script.content (script (fst (fst r))) = ScriptEditor.editedContent l /\
   ScriptEditor.hasChanges (snd (fst r)) = false) /\
  (ScriptEditor.hasChanges l = false ->
   forall o_save o,
   let r := ScriptEditor.handleApprove o_save o l s in
   fst (fst r) = state_of (complete approveScript o s) /\
   snd (fst r) = l /\
   length (snd r) = 1%nat).
Proof.
  unfold ScriptEditor.handleApprove, ScriptEditor.handleSave.
  split; [ | split]; intros H; rewrite H.
  - intros e. unfold_call. cbn -[nextStep currentIndex].
    rewrite nextStep_eq. cbn -[nextStep currentIndex].
    rewrite nextStep_index, nextStep_as_update. repeat split.
  - intros [[] | e]; unfold_call; cbn -[nextStep];
      rewrite ?nextStep_as_update; split; reflexivity.
  - intros o_save [[] | e]; unfold_call; cbn -[nextStep];
      rewrite ?nextStep_as_update; repeat split.
Qed.

Lemma editor_approves_after_failed_save_witness :
  let dirty := ScriptEditor.mkLocal "Hello there" true true in
  let clean := ScriptEditor.mkLocal "Hello world" false true in
  (ScriptEditor.hasChanges dirty = true /\
   Script.content
     (script (fst (fst (ScriptEditor.handleApprove (Rejected timeout_error)
                          (Resolved tt) dirty scripted)))) = "Hello world" /\
   currentStep
     (fst (fst (ScriptEditor.handleApprove (Rejected timeout_error)
                  (Resolved tt) dirty scripted))) = "audio") /\
  (Script.content
     (script (fst (fst (ScriptEditor.handleApprove (Resolved tt)
                          (Resolved tt) dirty scripted)))) = "Hello there") /\
  (ScriptEditor.hasChanges clean = false /\
   snd (fst (ScriptEditor.handleApprove (Resolved tt) (Resolved tt)
               clean scripted)) = clean).
Proof.
  cbv zeta.
  pose proof (editor_approves_after_failed_save
                (ScriptEditor.mkLocal "Hello there" true true) scripted)
    as [F [S _]].
  pose proof (editor_approves_after_failed_save
                (ScriptEditor.mkLocal "Hello world" false true) scripted)
    as [_ [_ C]].
  split; [ | split].
  - split; [reflexivity | ].
    destruct (F eq_refl timeout_error) as [Hs _].
    split; [rewrite Hs; reflexivity | reflexivity].
  - apply (S eq_refl (Resolved tt)).
  - split; [reflexivity | ].
    apply (C eq_refl (Resolved tt) (Resolved tt)).
Defined.

(** ** Removing an asset *)


(** ** The voice list of the voice studio *)

Lemma push_each {A B} (b : bool) (f : A -> B) (l : list A) (init : list B) :
  fold_left (fun acc x => if b then (acc ++ [f x])%list else acc) l init =
  (init ++ (if b then map f l else []))%list.
Proof.
  revert init. induction l as [| x l IH]; intros init; cbn [fold_left map].
  - destruct b; rewrite app_nil_r; reflexivity.
  - rewrite IH. destruct b; [ | reflexivity].
    rewrite <- app_assoc. reflexivity.
Qed.

Lemma getFilteredVoices_eq
    (selectedEngine : string) (voices clonedVoices : list VoiceSelector.Card) :
  VoiceSelector.getFilteredVoices selectedEngine voices clonedVoices =
  ((if String.eqb selectedEngine "all" then voices
    else filter (VoiceSelector.has_engine selectedEngine) voices) ++
   (if String.eqb selectedEngine "all" || String.eqb selectedEngine "xtts"
    then map VoiceSelector.as_clone clonedVoices
    else []))%list.
Proof.
  unfold VoiceSelector.getFilteredVoices. rewrite push_each.
  destruct (String.eqb selectedEngine "all"); reflexivity.
Qed.

(** The list shown is the stored voices, all of them under the tab "all"
    and otherwise those of the chosen engine, in their order, followed by
    the cloned voices, marked as clones of engine xtts, under the tabs
    "all" and "xtts" only. *)
Theorem getFilteredVoices_closed_form
    (selectedEngine : string) (voices clonedVoices : list VoiceSelector.Card) :
  VoiceSelector.getFilteredVoices selectedEngine voices clonedVoices =
  ((if String.eqb selectedEngine "all" then voices
    else filter (VoiceSelector.has_engine selectedEngine) voices) ++
   (if String.eqb selectedEngine "all" || String.eqb selectedEngine "xtts"
    then map VoiceSelector.as_clone clonedVoices
    else []))%list.
Proof. apply getFilteredVoices_eq. Qed.

(** Under the tab of one engine, every voice shown is of that engine, the
    clones included, and no more voices are shown than there are stored
    and cloned together. *)
Theorem getFilteredVoices_one_engine
    (selectedEngine : string) (voices clonedVoices : list VoiceSelector.Card) :
  selectedEngine <> "all" ->
  Forall (fun v => VoiceSelector.engine v = Some selectedEngine)
    (VoiceSelector.getFilteredVoices selectedEngine voices clonedVoices) /\
  (length (VoiceSelector.getFilteredVoices selectedEngine voices clonedVoices)
   <= length voices + length clonedVoices)%nat.
Proof.
  intros H. rewrite getFilteredVoices_eq.
  apply String.eqb_neq in H. rewrite H. cbn [orb]. split.
  - apply Forall_app. split.
    + apply Forall_forall. intros v Hv. apply filter_In in Hv as [_ Hv].
      unfold VoiceSelector.has_engine in Hv.
      destruct (VoiceSelector.engine v) as [e |]; [ | discriminate Hv].
      apply String.eqb_eq in Hv. subst. reflexivity.
    + destruct (String.eqb_spec selectedEngine "xtts") as [-> | _];
        [ | constructor].
      apply Forall_forall. intros v Hv. apply in_map_iff in Hv as [c [<- _]].
      reflexivity.
  - rewrite length_app.
    pose proof (filter_length_le (VoiceSelector.has_engine selectedEngine)
                  voices) as L.
    destruct (String.eqb selectedEngine "xtts");
      [rewrite length_map | cbn [length] ]; lia.
Qed.

Lemma getFilteredVoices_one_engine_witness :
  let piper := VoiceSelector.mkCard "p1" "Amy" (Some "piper") None false in
  let bark := VoiceSelector.mkCard "b1" "Max" (Some "bark") None false in
  let mine := VoiceSelector.mkCard "c1" "Me" None (Some "") false in
  "xtts" <> "all" /\
  VoiceSelector.getFilteredVoices "xtts" [piper; bark] [mine] =
    [ VoiceSelector.mkCard "c1" "Me" (Some "xtts")
        (Some "Custom voice clone") true ] /\
  Forall (fun v => VoiceSelector.engine v = Some "xtts")
    (VoiceSelector.getFilteredVoices "xtts" [piper; bark] [mine]).
Proof.
  cbv zeta.
  assert (N : "xtts" <> "all") by discriminate.
  split; [exact N | split; [reflexivity | ] ].
  apply (getFilteredVoices_one_engine "xtts"
           [ VoiceSelector.mkCard "p1" "Amy" (Some "piper") None false;
             VoiceSelector.mkCard "b1" "Max" (Some "bark") None false ]
           [ VoiceSelector.mkCard "c1" "Me" None (Some "") false ] N).
Defined.

(** ** What reaches the backend *)

(** The request [generateAudio] sends carries the voice and its two
    settings and nothing of the script: from any two states whose script
    text is not empty it sends the same request.  The request of
    [generateScript] does carry the title of the selected trend, and its
    description or the empty string. *)
Theorem audio_request_ignores_script
    (voiceId : string) (stability similarityBoost : number)
    (s1 s2 : State) :
  falsy (Script.content (script s1)) = false ->
  falsy (Script.content (script s2)) = false ->
  sent (generateAudio voiceId stability similarityBoost) s1 =
    sent (generateAudio voiceId stability similarityBoost) s2 /\
  sent (generateAudio voiceId stability similarityBoost) s1 =
    Some (Api.post "/api/audio/generate"
            (Api.JsonObject
               [ ("voice_id", Api.VString voiceId);
                 ("stability", Api.VNumber stability);
                 ("similarity_boost", Api.VNumber similarityBoost) ])) /\
  (forall tone len t,
   sent (generateScript tone len) (with_selectedTrend (Some t) s1) =
     Some (Api.post "/api/script/generate"
             (Api.JsonObject
                [ ("query", Api.VString (Trend.title t));
                  ("description",
                   Api.VString (or_empty (Trend.description t)));
                  ("tone", Api.VString tone);
                  ("length", Api.VString len);
                  ("use_crewai", Api.VBool false) ]))).
Proof.
  intros H1 H2. unfold sent, generateAudio, before, bind, get, set, ret.
  rewrite H1, H2. repeat split.
Qed.

Lemma audio_request_ignores_script_witness :
  let edited :=
    state_of (complete (updateScript "Another text") (Resolved tt) scripted) in
  falsy (Script.content (script scripted)) = false /\
  falsy (Script.content (script edited)) = false /\
  Script.content (script scripted) <> Script.content (script edited) /\
  sent (generateAudio "voice-1" (1 # 2)%Q (3 # 4)%Q) scripted =
    sent (generateAudio "voice-1" (1 # 2)%Q (3 # 4)%Q) edited.
Proof.
  cbv zeta.
  split; [reflexivity | split; [reflexivity | split] ].
  - vm_compute. discriminate.
  - apply (audio_request_ignores_script "voice-1" (1 # 2)%Q (3 # 4)%Q
             scripted
             (state_of (complete (updateScript "Another text") (Resolved tt)
                          scripted))
             eq_refl eq_refl).
Defined.
